(** * XPBD rigid-body engine: the step driver of [physics/engine.py]

    The development embeds the driver of the simulation
    ([_physics_step_static], [_n_step_simulation] and the class
    [TensorPhysicsEngine]) and states the properties of the engine's
    interface over it.

    Conventions of the embedding:
    - a Python [float] is an IEEE-754 binary64 value, a [spec_float] of the
      Standard Library; [==] and [!=] are [SFeqb] and its negation;
    - a numpy array is its shape and its flat buffer; a [Tensor] wraps the
      realised array ([numpy] is [Tensor.numpy()]);
    - a call that may raise returns a [Result]; a method of the engine takes
      the object and returns the object after the call together with the
      outcome, so that a mutation made before an exception is kept;
    - the six pipeline stages imported from [physics/xpbd] are parameters of
      the driver: every theorem about the driver holds for each
      implementation of them;
    - a [TinyJit] wrapper counts its calls: the first call runs the wrapped
      function, the second runs it and captures the kernels it schedules,
      and every later call replays the captured kernels on the tensors it is
      passed. What a run schedules and what a replay computes belong to the
      tensor library and are parameters of the driver, like the stages. *)

From Stdlib Require Import ZArith List Bool Lia.
From Stdlib Require Import Floats.SpecFloat Floats.PrimFloat Floats.FloatOps.
From stdpp Require Import base option gmap strings.

Local Open Scope Z_scope.
Set Warnings "-inexact-float".

(** ** Exceptions and results *)

Inductive exn : Type :=
| TypeError
| IndexError
| OtherError (name : string).

Definition ConfigurationError : exn := OtherError "ConfigurationError".
Definition JitError : exn := OtherError "JitError".
Definition AssertionError : exn := OtherError "AssertionError".

Inductive Result (A : Type) : Type :=
| Ok (a : A)
| Raise (e : exn).
Arguments Ok {A} a.
Arguments Raise {A} e.

Definition bind {A B : Type} (r : Result A) (k : A -> Result B) : Result B :=
  match r with
  | Ok a => k a
  | Raise e => Raise e
  end.

Notation "'let**' p ':=' r 'in' k" := (bind r (fun p => k))
  (at level 10, p pattern, r at level 100, k at level 200).

Definition is_ok {A : Type} (r : Result A) : bool :=
  match r with Ok _ => true | Raise _ => false end.

(** ** Python floats and float32 elements *)

Definition pyfloat : Type := spec_float.

(** The binary64 value a decimal literal of the source denotes. *)
Definition literal (f : PrimFloat.float) : pyfloat := Prim2SF f.

Definition py_eq (a b : pyfloat) : bool := SFeqb a b.
Definition py_ne (a b : pyfloat) : bool := negb (SFeqb a b).

(** Rounding of a binary64 value to binary32 (24 bits of precision,
    exponents up to 128), to nearest even. *)
Definition to_float32 (f : spec_float) : spec_float :=
  match f with
  | S754_finite s m e => binary_round 24 128 s m e
  | _ => f
  end.

Definition int_to_float32 (z : Z) : spec_float := binary_normalize 24 128 z 0 false.

Definition wrap_int32 (z : Z) : Z := (z + 2 ^ 31) mod 2 ^ 32 - 2 ^ 31.

(** C conversion of a floating value to int32: truncation towards zero; the
    value for NaN, infinities and values out of range is the one x86 gives. *)
Definition float_to_int32 (f : spec_float) : Z :=
  match f with
  | S754_zero _ => 0
  | S754_finite s m e =>
      let t := Z.shiftl (Z.pos m) e in
      let t := if s then - t else t in
      if (- 2 ^ 31 <=? t) && (t <? 2 ^ 31) then t else - 2 ^ 31
  | _ => - 2 ^ 31
  end.

(** ** numpy arrays and tensors *)

Inductive npdata : Type :=
| NpFloat (l : list spec_float)
| NpInt (l : list Z).

Record ndarray : Type := mk_ndarray { nd_shape : list nat; nd_data : npdata }.

Definition astype_float32 (a : ndarray) : ndarray :=
  mk_ndarray (nd_shape a)
    (match nd_data a with
     | NpFloat l => NpFloat (map to_float32 l)
     | NpInt l => NpFloat (map int_to_float32 l)
     end).

Definition astype_int32 (a : ndarray) : ndarray :=
  mk_ndarray (nd_shape a)
    (match nd_data a with
     | NpFloat l => NpInt (map float_to_int32 l)
     | NpInt l => NpInt (map wrap_int32 l)
     end).

(** [len(a)]: the first dimension; a 0-dimensional array has no length. *)
Definition len (a : ndarray) : Result nat :=
  match nd_shape a with
  | [] => Raise TypeError
  | n :: _ => Ok n
  end.

(** [np.ones(n, dtype=np.float32)] *)
Definition np_ones (n : nat) : ndarray :=
  mk_ndarray [n] (NpFloat (repeat (SFone 24 128) n)).

(** [a * s] for a float32 array [a] and a Python float [s]: the product is
    taken in float32. *)
Definition np_mul (a : ndarray) (s : pyfloat) : ndarray :=
  mk_ndarray (nd_shape a)
    (match nd_data a with
     | NpFloat l => NpFloat (map (fun e => SFmul 24 128 e (to_float32 s)) l)
     | NpInt l => NpFloat (map (fun z => SFmul 24 128 (int_to_float32 z) (to_float32 s)) l)
     end).

Record Tensor : Type := TensorOf { numpy : ndarray }.

(** [t.shape[0]] *)
Definition shape0 (t : Tensor) : Result nat :=
  match nd_shape (numpy t) with
  | [] => Raise IndexError
  | n :: _ => Ok n
  end.

(** [Tensor.zeros((n,))] *)
Definition Tensor_zeros (n : nat) : Tensor :=
  TensorOf (mk_ndarray [n] (NpFloat (repeat (S754_zero false) n))).

(** The contact record of the narrowphase: a dictionary from field names to
    tensors, whose fields may be absent when there is no contact. *)
Abbreviation Contacts := (gmap string Tensor).


(** ** The pipeline stages

    [predict_state], [uniform_spatial_hash], [generate_contacts],
    [solve_constraints], [reconcile_velocities] and [solve_velocities] are
    imported by the driver; their arguments and results are the ones of the
    calls in [_physics_step_static]. *)

Record xpbd : Type := {
  Pairs : Type;
  predict_state :
    Tensor -> Tensor -> Tensor -> Tensor -> Tensor -> Tensor -> Tensor -> pyfloat ->
    Result (Tensor * Tensor * Tensor * Tensor);
  uniform_spatial_hash : Tensor -> Tensor -> Tensor -> Result Pairs;
  generate_contacts :
    Tensor -> Tensor -> Pairs -> Tensor -> Tensor -> Tensor -> pyfloat ->
    Result Contacts;
  solve_constraints :
    Tensor -> Tensor -> Contacts -> Tensor -> Tensor -> pyfloat -> Z ->
    Result (Tensor * Tensor);
  reconcile_velocities :
    Tensor -> Tensor -> Tensor -> Tensor -> Tensor -> Tensor -> pyfloat ->
    Result (Tensor * Tensor);
  solve_velocities :
    Tensor -> Tensor -> Contacts -> Tensor -> Tensor -> pyfloat -> Tensor -> pyfloat ->
    Result (Tensor * Tensor)
}.

(** The body state a step reads and returns: [(x, q, v, omega)]. *)
Abbreviation BodyState := (Tensor * Tensor * Tensor * Tensor)%type.

(** The local variables of one run of [_physics_step_static]. *)
Record step_locals : Type := {
  x_pred : Tensor; q_pred : Tensor; v_new : Tensor; omega_new : Tensor;
  contacts : Contacts;
  x_proj : Tensor; q_proj : Tensor;
  v_reconciled : Tensor; omega_reconciled : Tensor;
  num_contacts : nat;
  lambda_acc : Tensor;
  v_final : Tensor; omega_final : Tensor
}.

Section Driver.
Context (S : xpbd).

(** [contacts['ids_a'].shape[0] if 'ids_a' in contacts else 0] *)
Definition count_contacts (contacts : Contacts) : Result nat :=
  match contacts !! "ids_a" with
  | Some ids_a => shape0 ids_a
  | None => Ok 0%nat
  end.

(** The body of [_physics_step_static], statement by statement. *)
Definition physics_step_locals (x q v omega : Tensor)
    (inv_mass inv_inertia shape_type shape_params friction : Tensor)
    (dt : pyfloat) (gravity : Tensor) (restitution : pyfloat)
    (solver_iterations : Z) (contact_compliance : pyfloat) : Result step_locals :=
  let x_old := x in
  let q_old := q in
  let** (x_pred, q_pred, v_new, omega_new) :=
    predict_state S x q v omega inv_mass inv_inertia gravity dt in
  let** candidate_pairs := uniform_spatial_hash S x_pred shape_type shape_params in
  let** contacts :=
    generate_contacts S x_pred q_pred candidate_pairs shape_type shape_params
      friction contact_compliance in
  let** (x_proj, q_proj) :=
    solve_constraints S x_pred q_pred contacts inv_mass inv_inertia dt
      solver_iterations in
  let** (v_reconciled, omega_reconciled) :=
    reconcile_velocities S x_proj q_proj x_old q_old v_new omega_new dt in
  let** num_contacts := count_contacts contacts in
  let lambda_acc := Tensor_zeros num_contacts in
  let** (v_final, omega_final) :=
    solve_velocities S v_reconciled omega_reconciled contacts inv_mass inv_inertia
      dt lambda_acc restitution in
  Ok {| x_pred := x_pred; q_pred := q_pred; v_new := v_new; omega_new := omega_new;
        contacts := contacts; x_proj := x_proj; q_proj := q_proj;
        v_reconciled := v_reconciled; omega_reconciled := omega_reconciled;
        num_contacts := num_contacts; lambda_acc := lambda_acc;
        v_final := v_final; omega_final := omega_final |}.

Definition _physics_step_static (x q v omega : Tensor)
    (inv_mass inv_inertia shape_type shape_params friction : Tensor)
    (dt : pyfloat) (gravity : Tensor) (restitution : pyfloat)
    (solver_iterations : Z) (contact_compliance : pyfloat) : Result BodyState :=
  let** l :=
    physics_step_locals x q v omega inv_mass inv_inertia shape_type shape_params
      friction dt gravity restitution solver_iterations contact_compliance in
  Ok (x_proj l, q_proj l, v_final l, omega_final l).

(** [for _ in range(k)]: the loop of [_n_step_simulation]. *)
Fixpoint n_step_loop (k : nat) (st : BodyState)
    (inv_mass inv_inertia shape_type shape_params friction : Tensor)
    (dt : pyfloat) (gravity : Tensor) (restitution : pyfloat)
    (solver_iterations : Z) (contact_compliance : pyfloat) : Result BodyState :=
  match k with
  | O => Ok st
  | Datatypes.S k' =>
      let '(x, q, v, omega) := st in
      let** st' :=
        _physics_step_static x q v omega inv_mass inv_inertia shape_type
          shape_params friction dt gravity restitution solver_iterations
          contact_compliance in
      n_step_loop k' st' inv_mass inv_inertia shape_type shape_params friction
        dt gravity restitution solver_iterations contact_compliance
  end.

(** [range(num_steps)] is empty for a negative [num_steps]. *)
Definition _n_step_simulation (x q v omega : Tensor)
    (inv_mass inv_inertia shape_type shape_params friction : Tensor)
    (dt : pyfloat) (gravity : Tensor) (num_steps : Z) (restitution : pyfloat)
    (solver_iterations : Z) (contact_compliance : pyfloat) : Result BodyState :=
  n_step_loop (Z.to_nat num_steps) (x, q, v, omega) inv_mass inv_inertia
    shape_type shape_params friction dt gravity restitution solver_iterations
    contact_compliance.
End Driver.

(** ** The wrapper [TinyJit]

    The tensors of a call are the inputs of the wrapper; the Python values
    of a call are fixed by a capture. *)

Record jit_inputs : Type := mk_inputs {
  in_x : Tensor; in_q : Tensor; in_v : Tensor; in_omega : Tensor;
  in_inv_mass : Tensor; in_inv_inertia : Tensor;
  in_shape_type : Tensor; in_shape_params : Tensor; in_friction : Tensor;
  in_gravity : Tensor
}.

Record step_values : Type := mk_values {
  val_dt : pyfloat; val_restitution : pyfloat;
  val_solver_iterations : Z; val_contact_compliance : pyfloat
}.

(** The Python values of a call of the n-step function: those of a step and
    [num_steps]. *)
Abbreviation n_step_values := (step_values * Z)%type.

Module TinyJit.

(** The wrapper object: the count of its calls that returned, and the
    arguments of the call that was captured. *)
Record state (P : Type) : Type := mk_state {
  cnt : nat;
  captured : option (jit_inputs * P)
}.
Arguments mk_state {P} cnt captured.
Arguments cnt {P} s.
Arguments captured {P} s.

(** [TinyJit(fxn)] *)
Definition fresh {P : Type} : state P := mk_state O None.

(** [__call__]. With count 0 the function runs. With count 1 the function
    runs and its kernels are captured; [JitError] is raised when it
    scheduled none. From count 2 on the captured kernels are replayed on the
    tensors of the call; the Python values of the call are not read. The
    count grows when the call returns, not when it raises. *)
Definition call {P : Type} (fxn : jit_inputs -> P -> Result BodyState)
    (records : jit_inputs -> P -> bool)
    (replay : jit_inputs -> P -> jit_inputs -> Result BodyState)
    (j : state P) (i : jit_inputs) (p : P) : state P * Result BodyState :=
  match cnt j with
  | O =>
      match fxn i p with
      | Ok r => (mk_state 1%nat (captured j), Ok r)
      | Raise e => (j, Raise e)
      end
  | Datatypes.S O =>
      match fxn i p with
      | Ok r =>
          if records i p then (mk_state 2%nat (Some (i, p)), Ok r)
          else (j, Raise JitError)
      | Raise e => (j, Raise e)
      end
  | Datatypes.S (Datatypes.S _) =>
      match captured j with
      | Some (i0, p0) =>
          match replay i0 p0 i with
          | Ok r => (mk_state (Datatypes.S (cnt j)) (captured j), Ok r)
          | Raise e => (j, Raise e)
          end
      | None => (j, Raise AssertionError)
      end
  end.

End TinyJit.

(** What the tensor library does under the two wrappers of the engine:
    whether a run of the wrapped function on given arguments schedules a
    kernel, and what the kernels captured on given arguments compute on the
    tensors of a later call. *)
Record tracer : Type := {
  step_records : jit_inputs -> step_values -> bool;
  step_replay : jit_inputs -> step_values -> jit_inputs -> Result BodyState;
  n_step_records : jit_inputs -> n_step_values -> bool;
  n_step_replay : jit_inputs -> n_step_values -> jit_inputs -> Result BodyState
}.

(** The two wrapped functions, on the arguments of a call. *)
Definition step_fxn (S : xpbd) (i : jit_inputs) (p : step_values)
    : Result BodyState :=
  _physics_step_static S (in_x i) (in_q i) (in_v i) (in_omega i) (in_inv_mass i)
    (in_inv_inertia i) (in_shape_type i) (in_shape_params i) (in_friction i)
    (val_dt p) (in_gravity i) (val_restitution p) (val_solver_iterations p)
    (val_contact_compliance p).

Definition n_step_fxn (S : xpbd) (i : jit_inputs) (p : n_step_values)
    : Result BodyState :=
  _n_step_simulation S (in_x i) (in_q i) (in_v i) (in_omega i) (in_inv_mass i)
    (in_inv_inertia i) (in_shape_type i) (in_shape_params i) (in_friction i)
    (val_dt (fst p)) (in_gravity i) (snd p) (val_restitution (fst p))
    (val_solver_iterations (fst p)) (val_contact_compliance (fst p)).

(** A run of the n-step function schedules a kernel only if its loop has an
    iteration: with no step to run it returns its arguments. *)
Definition n_step_schedules (J : tracer) (i : jit_inputs) (p : n_step_values)
    : bool :=
  (0 <? snd p) && n_step_records J i p.

(** ** The engine object *)

Module TensorPhysicsEngine.

(** The attributes of the object. [jitted_step] is the wrapper of the step
    function; [jitted_n_step] is [None] until the wrapper of the n-step
    function is created. *)
Record t : Type := mk {
  x : Tensor; q : Tensor; v : Tensor; omega : Tensor;
  inv_mass : Tensor; inv_inertia : Tensor;
  shape_type : Tensor; shape_params : Tensor; friction : Tensor;
  gravity : Tensor;
  dt : pyfloat; restitution : pyfloat;
  solver_iterations : Z; contact_compliance : pyfloat;
  jitted_step : TinyJit.state step_values;
  jitted_n_step : option (TinyJit.state n_step_values)
}.

(** The defaults of the keyword arguments of [__init__]. *)
Definition default_gravity : ndarray :=
  Eval vm_compute in
    mk_ndarray [3%nat]
      (NpFloat (map (fun f => to_float32 (literal f)) [0; -9.81; 0]%float)).
Definition default_dt : pyfloat := Eval vm_compute in literal 0.016%float.
Definition default_restitution : pyfloat := Eval vm_compute in literal 0.1%float.
Definition default_solver_iterations : Z := 8.
Definition default_contact_compliance : pyfloat :=
  Eval vm_compute in literal 0.01%float.
Definition one_half : pyfloat := Eval vm_compute in literal 0.5%float.

Definition __init__ (x0 q0 v0 omega0 inv_mass0 inv_inertia0 shape_type0
    shape_params0 : ndarray) (friction0 gravity0 : option ndarray)
    (dt0 restitution0 : option pyfloat) (solver_iterations0 : option Z)
    (contact_compliance0 : option pyfloat) : Result t :=
  let self_x := TensorOf (astype_float32 x0) in
  let self_q := TensorOf (astype_float32 q0) in
  let self_v := TensorOf (astype_float32 v0) in
  let self_omega := TensorOf (astype_float32 omega0) in
  let self_inv_mass := TensorOf (astype_float32 inv_mass0) in
  let self_inv_inertia := TensorOf (astype_float32 inv_inertia0) in
  let self_shape_type := TensorOf (astype_int32 shape_type0) in
  let self_shape_params := TensorOf (astype_float32 shape_params0) in
  let** friction1 :=
    match friction0 with
    | None => let** n := len x0 in Ok (np_mul (np_ones n) one_half)
    | Some f => Ok f
    end in
  Ok {| x := self_x; q := self_q; v := self_v; omega := self_omega;
        inv_mass := self_inv_mass; inv_inertia := self_inv_inertia;
        shape_type := self_shape_type; shape_params := self_shape_params;
        friction := TensorOf (astype_float32 friction1);
        gravity := TensorOf (astype_float32 (default default_gravity gravity0));
        dt := default default_dt dt0;
        restitution := default default_restitution restitution0;
        solver_iterations := default default_solver_iterations solver_iterations0;
        contact_compliance := default default_contact_compliance contact_compliance0;
        jitted_step := TinyJit.fresh;
        jitted_n_step := None |}.

(** The four attributes a step assigns. *)
Definition assign_state (self : t) (st : BodyState) : t :=
  let '(x1, q1, v1, omega1) := st in
  mk x1 q1 v1 omega1 (inv_mass self) (inv_inertia self) (shape_type self)
    (shape_params self) (friction self) (gravity self) (dt self)
    (restitution self) (solver_iterations self) (contact_compliance self)
    (jitted_step self) (jitted_n_step self).

Definition set_dt (self : t) (d : pyfloat) : t :=
  mk (x self) (q self) (v self) (omega self) (inv_mass self) (inv_inertia self)
    (shape_type self) (shape_params self) (friction self) (gravity self) d
    (restitution self) (solver_iterations self) (contact_compliance self)
    (jitted_step self) (jitted_n_step self).

Definition set_jitted_step (self : t) (j : TinyJit.state step_values) : t :=
  mk (x self) (q self) (v self) (omega self) (inv_mass self) (inv_inertia self)
    (shape_type self) (shape_params self) (friction self) (gravity self)
    (dt self) (restitution self) (solver_iterations self)
    (contact_compliance self) j (jitted_n_step self).

Definition set_jitted_n_step (self : t) (j : TinyJit.state n_step_values) : t :=
  mk (x self) (q self) (v self) (omega self) (inv_mass self) (inv_inertia self)
    (shape_type self) (shape_params self) (friction self) (gravity self)
    (dt self) (restitution self) (solver_iterations self)
    (contact_compliance self) (jitted_step self) (Some j).

(** The tensors and the Python values the engine passes to its wrappers. *)
Definition inputs_of (self : t) : jit_inputs :=
  mk_inputs (x self) (q self) (v self) (omega self) (inv_mass self)
    (inv_inertia self) (shape_type self) (shape_params self) (friction self)
    (gravity self).

Definition values_of (self : t) : step_values :=
  mk_values (dt self) (restitution self) (solver_iterations self)
    (contact_compliance self).

(** A call whose results are assigned to [self.x, self.q, self.v,
    self.omega]: nothing is assigned when the call raises. *)
Definition commit (self : t) (r : Result BodyState) : t * Result unit :=
  match r with
  | Ok st => (assign_state self st, Ok tt)
  | Raise e => (self, Raise e)
  end.

(** The wrapper of the n-step function, created on first use. *)
Definition n_step_wrapper (self : t) : TinyJit.state n_step_values :=
  default TinyJit.fresh (jitted_n_step self).

Section Methods.
Context (J : tracer) (S : xpbd).

Definition _physics_step (self : t) : Result BodyState :=
  _physics_step_static S (x self) (q self) (v self) (omega self)
    (inv_mass self) (inv_inertia self) (shape_type self) (shape_params self)
    (friction self) (dt self) (gravity self) (restitution self)
    (solver_iterations self) (contact_compliance self).

Definition run_simulation (num_steps : Z) (self : t) : t * Result unit :=
  let '(j', r) :=
    TinyJit.call (n_step_fxn S) (n_step_schedules J) (n_step_replay J)
      (n_step_wrapper self) (inputs_of self) (values_of self, num_steps) in
  commit (set_jitted_n_step self j') r.

Definition step (dt0 : option pyfloat) (self : t) : t * Result unit :=
  let self :=
    match dt0 with
    | Some d => if py_ne d (dt self) then set_dt self d else self
    | None => self
    end in
  let '(j', r) :=
    TinyJit.call (step_fxn S) (step_records J) (step_replay J)
      (jitted_step self) (inputs_of self) (values_of self) in
  commit (set_jitted_step self j') r.
End Methods.

Definition get_state (self : t) : gmap string ndarray :=
  {[ "x" := numpy (x self); "q" := numpy (q self); "v" := numpy (v self);
     "omega" := numpy (omega self); "inv_mass" := numpy (inv_mass self);
     "inv_inertia" := numpy (inv_inertia self);
     "shape_type" := numpy (shape_type self);
     "shape_params" := numpy (shape_params self) ]}.

Definition set_state (x0 q0 v0 omega0 : ndarray) (self : t) : t * Result unit :=
  (assign_state self
     (TensorOf (astype_float32 x0), TensorOf (astype_float32 q0),
      TensorOf (astype_float32 v0), TensorOf (astype_float32 omega0)),
   Ok tt).

End TensorPhysicsEngine.

(** ** Clients of the engine *)

Import TensorPhysicsEngine.

(** The Body Store of the engine: position, orientation, linear and angular
    velocity. *)
Definition body_store (self : t) : BodyState :=
  (x self, q self, v self, omega self).

(** One run of the pipeline on the Body Store of [self] with time step [d]. *)
Definition pipeline (S : xpbd) (self : t) (d : pyfloat) : Result BodyState :=
  _physics_step_static S (x self) (q self) (v self) (omega self)
    (inv_mass self) (inv_inertia self) (shape_type self) (shape_params self)
    (friction self) d (gravity self) (restitution self)
    (solver_iterations self) (contact_compliance self).

(** The n-step loop on the Body Store and the parameters of [self]. *)
Definition loop_of (S : xpbd) (k : nat) (self : t) : Result BodyState :=
  n_step_loop S k (body_store self) (inv_mass self) (inv_inertia self)
    (shape_type self) (shape_params self) (friction self) (dt self)
    (gravity self) (restitution self) (solver_iterations self)
    (contact_compliance self).

(** [k] calls [engine.step()] in sequence; an exception ends the sequence. *)
Fixpoint step_n (J : tracer) (S : xpbd) (k : nat) (self : t) : t * Result unit :=
  match k with
  | O => (self, Ok tt)
  | Datatypes.S k' =>
      match step J S None self with
      | (self', Ok _) => step_n J S k' self'
      | (self', Raise e) => (self', Raise e)
      end
  end.

(** The calls of the interface that change the object. *)
Inductive call : Type :=
| Step (dt0 : option pyfloat)
| RunSteps (n : Z)
| SetState (x0 q0 v0 omega0 : ndarray).

Definition perform (J : tracer) (S : xpbd) (c : call) (self : t)
    : t * Result unit :=
  match c with
  | Step dt0 => step J S dt0 self
  | RunSteps n => run_simulation J S n self
  | SetState x0 q0 v0 omega0 => set_state x0 q0 v0 omega0 self
  end.

(** The engine after a sequence of calls by a client that goes on after an
    exception. *)
Definition perform_all (J : tracer) (S : xpbd) (cs : list call) (self : t) : t :=
  fold_left (fun e c => fst (perform J S c e)) cs self.

(** A call that passes no time step. *)
Definition keeps_dt (c : call) : bool :=
  match c with
  | Step (Some _) => false
  | _ => true
  end.

Definition is_run_steps (c : call) : bool :=
  match c with
  | RunSteps _ => true
  | _ => false
  end.

(** A stage raises [e] on some arguments. *)
Definition stage_raises (S : xpbd) (e : exn) : Prop :=
  (exists a b c d f g h i, predict_state S a b c d f g h i = Raise e) \/
  (exists a b c, uniform_spatial_hash S a b c = Raise e) \/
  (exists a b c d f g h, generate_contacts S a b c d f g h = Raise e) \/
  (exists a b c d f g h, solve_constraints S a b c d f g h = Raise e) \/
  (exists a b c d f g h, reconcile_velocities S a b c d f g h = Raise e) \/
  (exists a b c d f g h i, solve_velocities S a b c d f g h i = Raise e).

(** The attributes that describe the bodies and are not part of the Body
    Store. *)
Definition immutable_attributes (self : t)
    : Tensor * Tensor * Tensor * Tensor * Tensor :=
  (inv_mass self, inv_inertia self, shape_type self, shape_params self,
   friction self).

(** The attributes of the configuration that no method assigns. *)
Definition fixed_configuration (self : t) : Tensor * pyfloat * Z * pyfloat :=
  (gravity self, restitution self, solver_iterations self,
   contact_compliance self).

(** The time step a call [step(dt0)] stores and passes to the wrapper. *)
Definition time_step_of (dt0 : option pyfloat) (self : t) : pyfloat :=
  match dt0 with
  | Some d => if py_ne d (dt self) then d else dt self
  | None => dt self
  end.

(** The wrapper of the step function runs the function on a call with the
    stored time step [d] and lets its result through: on its first call, and
    on its second when the run schedules a kernel. *)
Definition step_runs_function (J : tracer) (self : t) (d : pyfloat) : bool :=
  match TinyJit.cnt (jitted_step self) with
  | O => true
  | Datatypes.S O => step_records J (inputs_of self) (values_of (set_dt self d))
  | _ => false
  end.

(** The engine once the wrapper of the n-step function exists. *)
Definition with_n_step_wrapper (self : t) : t :=
  set_jitted_n_step self (n_step_wrapper self).

Definition is_zero_float (f : pyfloat) : bool :=
  match f with S754_zero _ => true | _ => false end.

(** ** Arrays that conversion leaves as they are *)

(** An array of float32 values: each element is a zero, an infinity, NaN or
    a finite value in the canonical form of binary32. *)
Definition holds_float32 (a : ndarray) : bool :=
  match nd_data a with
  | NpFloat l => forallb (valid_binary 24 128) l
  | NpInt _ => false
  end.

(** An array of integers in the range of int32. *)
Definition holds_int32 (a : ndarray) : bool :=
  match nd_data a with
  | NpInt l => forallb (fun z => (- 2 ^ 31 <=? z) && (z <? 2 ^ 31)) l
  | NpFloat _ => false
  end.

(** The float32 value 0.5. *)
Definition half32 : spec_float := S754_finite false 8388608 (-24).

(** ** Stages and a tracer for running the driver *)

(** The tracer of stages whose kernels do not depend on the values in the
    tensors: every run schedules kernels, and a replay computes, on the
    tensors of the call, what the wrapped function computes with the Python
    values of the captured call. *)
Definition tracing (S : xpbd) : tracer := {|
  step_records := fun _ _ => true;
  step_replay := fun _ p0 i => step_fxn S i p0;
  n_step_records := fun _ _ => true;
  n_step_replay := fun _ p0 i => n_step_fxn S i p0
|}.

(** Stages that keep the poses, find no contact, write the time step they
    are given into the linear velocity and add a dimension to the angular
    velocity: the time step a step ran with and the number of steps that
    ran can be read back from the Body Store. *)
Definition dt_tensor (d : pyfloat) : Tensor :=
  TensorOf (mk_ndarray [1%nat] (NpFloat [to_float32 d])).

Definition count_up (w : Tensor) : Tensor :=
  TensorOf (mk_ndarray (1%nat :: nd_shape (numpy w)) (nd_data (numpy w))).

Definition recording_probe : xpbd := {|
  Pairs := unit;
  predict_state := fun x q v omega _ _ _ d => Ok (x, q, dt_tensor d, count_up omega);
  uniform_spatial_hash := fun _ _ _ => Ok tt;
  generate_contacts := fun _ _ _ _ _ _ _ => Ok (∅ : Contacts);
  solve_constraints := fun x q _ _ _ _ _ => Ok (x, q);
  reconcile_velocities := fun _ _ _ _ v omega _ => Ok (v, omega);
  solve_velocities := fun v omega _ _ _ _ _ _ => Ok (v, omega)
|}.

(** The number of dimensions of the angular velocity. *)
Definition dimensions (self : t) : nat := length (nd_shape (numpy (omega self))).

(** An array of the given shape from decimal literals. *)
Definition vec (sh : list nat) (l : list PrimFloat.float) : ndarray :=
  mk_ndarray sh (NpFloat (map literal l)).

(** The bodies of the integration test: a static box at the origin and a
    sphere of radius 0.5 at height 1. The codes of the shape kinds are not
    in the driver; 1 and 0 stand for the box and the sphere. *)
Definition scene_x : ndarray := Eval vm_compute in vec [2; 3]%nat [0; 0; 0; 0; 1; 0]%float.
Definition scene_q : ndarray :=
  Eval vm_compute in vec [2; 4]%nat [1; 0; 0; 0; 1; 0; 0; 0]%float.
Definition scene_v : ndarray := Eval vm_compute in vec [2; 3]%nat [0; 0; 0; 0; 0; 0]%float.
Definition scene_inv_mass : ndarray := Eval vm_compute in vec [2]%nat [0; 1]%float.
Definition scene_inv_inertia : ndarray :=
  Eval vm_compute in vec [2; 3]%nat [0; 0; 0; 10; 10; 10]%float.
Definition scene_shape_type : ndarray := mk_ndarray [2%nat] (NpInt [1; 0]).
Definition scene_shape_params : ndarray :=
  Eval vm_compute in vec [2; 3]%nat [50; 0.05; 50; 0.5; 0; 0]%float.

(** The engine of these bodies, constructed with every default. *)
Definition scene_engine : Result t :=
  __init__ scene_x scene_q scene_v scene_v scene_inv_mass scene_inv_inertia
    scene_shape_type scene_shape_params None None None None None None.

(** The object that construction yields (see [scene_constructed]). *)
Definition scene : t :=
  Eval vm_compute in
    mk (TensorOf (astype_float32 scene_x)) (TensorOf (astype_float32 scene_q))
      (TensorOf (astype_float32 scene_v)) (TensorOf (astype_float32 scene_v))
      (TensorOf (astype_float32 scene_inv_mass))
      (TensorOf (astype_float32 scene_inv_inertia))
      (TensorOf (astype_int32 scene_shape_type))
      (TensorOf (astype_float32 scene_shape_params))
      (TensorOf (astype_float32 (np_mul (np_ones 2) one_half)))
      (TensorOf default_gravity) default_dt default_restitution 8
      default_contact_compliance TinyJit.fresh None.

Definition dt_0004 : pyfloat := Eval vm_compute in literal 0.004%float.
Definition dt_025 : pyfloat := Eval vm_compute in literal 0.25%float.
Definition dt_05 : pyfloat := Eval vm_compute in literal 0.5%float.

(** Stages that report one contact, between bodies 1 and 0, and write the
    accumulated impulses the velocity solver is given into the linear
    velocity. *)
Definition one_contact : Contacts :=
  {[ "ids_a" := TensorOf (mk_ndarray [1%nat] (NpInt [1]));
     "ids_b" := TensorOf (mk_ndarray [1%nat] (NpInt [0])) ]}.

Definition lambda_probe : xpbd := {|
  Pairs := unit;
  predict_state := fun x q v omega _ _ _ _ => Ok (x, q, v, omega);
  uniform_spatial_hash := fun _ _ _ => Ok tt;
  generate_contacts := fun _ _ _ _ _ _ _ => Ok one_contact;
  solve_constraints := fun x q _ _ _ _ _ => Ok (x, q);
  reconcile_velocities := fun _ _ _ _ v omega _ => Ok (v, omega);
  solve_velocities := fun _ omega _ _ _ _ lambda_acc _ => Ok (lambda_acc, omega)
|}.

(** Arrays that do not fit the scene: one inverse mass for two bodies, and a
    sphere of radius -1. *)
Definition short_inv_mass : ndarray := Eval vm_compute in vec [1]%nat [1]%float.
Definition negative_radius : ndarray :=
  Eval vm_compute in vec [2; 3]%nat [50; 0.05; 50; -1; 0; 0]%float.

(** Stages as [recording_probe], whose predictor raises once the linear
    velocity holds a time step, that is from the second step on. *)
Definition RuntimeError : exn := OtherError "RuntimeError".

Definition second_step_fails : xpbd := {|
  Pairs := unit;
  predict_state := fun x q v omega _ _ _ d =>
    match nd_shape (numpy v) with
    | [1%nat] => Raise RuntimeError
    | _ => Ok (x, q, dt_tensor d, count_up omega)
    end;
  uniform_spatial_hash := fun _ _ _ => Ok tt;
  generate_contacts := fun _ _ _ _ _ _ _ => Ok (∅ : Contacts);
  solve_constraints := fun x q _ _ _ _ _ => Ok (x, q);
  reconcile_velocities := fun _ _ _ _ v omega _ => Ok (v, omega);
  solve_velocities := fun v omega _ _ _ _ _ _ => Ok (v, omega)
|}.

(** Stages whose contact record holds a 0-dimensional [ids_a]. *)
Definition scalar_ids : Tensor := TensorOf (mk_ndarray [] (NpInt [1])).

Definition scalar_ids_probe : xpbd := {|
  Pairs := unit;
  predict_state := fun x q v omega _ _ _ _ => Ok (x, q, v, omega);
  uniform_spatial_hash := fun _ _ _ => Ok tt;
  generate_contacts := fun _ _ _ _ _ _ _ => Ok ({[ "ids_a" := scalar_ids ]} : Contacts);
  solve_constraints := fun x q _ _ _ _ _ => Ok (x, q);
  reconcile_velocities := fun _ _ _ _ v omega _ => Ok (v, omega);
  solve_velocities := fun v omega _ _ _ _ _ _ => Ok (v, omega)
|}.

(** The engine of the scene after two calls [step(0.5)], whose second
    captured the step with time step 0.5, and the engine after one call
    [step(0.5)] and a call of [set_state] with the state of the first. *)
Definition captured_engine : t :=
  perform_all (tracing recording_probe) recording_probe
    [Step (Some dt_05); Step None] scene.


(** The engine of the scene after two calls [run_simulation(k)], whose
    second captured a run of [k] steps. *)
Definition captured_run (k : Z) : t :=
  perform_all (tracing recording_probe) recording_probe
    [RunSteps k; RunSteps k] scene.

(** Whether the wrapper of the n-step function has been created. *)
Definition has_n_step_wrapper (self : t) : bool :=
  match jitted_n_step self with Some _ => true | None => false end.

(** The outcome of a call that assigns its result. *)
Definition outcome (r : Result BodyState) : Result unit :=
  match r with Ok _ => Ok tt | Raise e => Raise e end.

(** * Properties of the driver *)

Section WrapperFacts.
Context {P : Type} (fxn : jit_inputs -> P -> Result BodyState)
  (records : jit_inputs -> P -> bool)
  (replay : jit_inputs -> P -> jit_inputs -> Result BodyState).

(** A call of a wrapper that raises leaves the wrapper as it was. *)
Lemma call_raise (j : TinyJit.state P) (i : jit_inputs) (p : P) (ex : exn) :
  snd (TinyJit.call fxn records replay j i p) = Raise ex ->
  fst (TinyJit.call fxn records replay j i p) = j.
Proof.
  unfold TinyJit.call.
  destruct (TinyJit.cnt j) as [|[|k]].
  - destruct (fxn i p); cbn; [discriminate|reflexivity].
  - destruct (fxn i p); [destruct (records i p)|]; cbn;
      try discriminate; reflexivity.
  - destruct (TinyJit.captured j) as [[i0 p0]|]; [|reflexivity].
    destruct (replay i0 p0 i); cbn; [discriminate|reflexivity].
Qed.

Lemma call_first (j : TinyJit.state P) (i : jit_inputs) (p : P) :
  TinyJit.cnt j = O ->
  TinyJit.call fxn records replay j i p =
  match fxn i p with
  | Ok r => (TinyJit.mk_state 1%nat (TinyJit.captured j), Ok r)
  | Raise e => (j, Raise e)
  end.
Proof. unfold TinyJit.call. now intros ->. Qed.

Lemma call_capture (j : TinyJit.state P) (i : jit_inputs) (p : P) :
  TinyJit.cnt j = 1%nat ->
  TinyJit.call fxn records replay j i p =
  match fxn i p with
  | Ok r =>
      if records i p then (TinyJit.mk_state 2%nat (Some (i, p)), Ok r)
      else (j, Raise JitError)
  | Raise e => (j, Raise e)
  end.
Proof. unfold TinyJit.call. now intros ->. Qed.

(** From its third call on, a wrapper does not read the Python values of
    the call. *)
Lemma call_replay (j : TinyJit.state P) (i : jit_inputs) (p1 p2 : P) :
  (2 <= TinyJit.cnt j)%nat ->
  TinyJit.call fxn records replay j i p1 =
  TinyJit.call fxn records replay j i p2.
Proof.
  unfold TinyJit.call. destruct (TinyJit.cnt j) as [|[|k]]; [lia|lia|reflexivity].
Qed.
End WrapperFacts.

Section DriverFacts.
Context (J : tracer) (S : xpbd).

Lemma set_dt_same (e : t) : set_dt e (dt e) = e.
Proof. destruct e; reflexivity. Qed.

Lemma set_jitted_step_same (e : t) : set_jitted_step e (jitted_step e) = e.
Proof. destruct e; reflexivity. Qed.

Lemma assign_body_store (e : t) : assign_state e (body_store e) = e.
Proof. destruct e; reflexivity. Qed.

Lemma with_n_step_wrapper_some (e : t) (j : TinyJit.state n_step_values) :
  jitted_n_step e = Some j -> with_n_step_wrapper e = e.
Proof.
  destruct e. cbn. intros ->. reflexivity.
Qed.

(** [step] in one piece: the time step is stored, the wrapper is called,
    and the result is assigned. *)
Lemma step_unfold (dt0 : option pyfloat) (e : t) :
  step J S dt0 e =
  let e1 := set_dt e (time_step_of dt0 e) in
  let jr := TinyJit.call (step_fxn S) (step_records J) (step_replay J)
              (jitted_step e) (inputs_of e) (values_of e1) in
  commit (set_jitted_step e1 (fst jr)) (snd jr).
Proof.
  assert (H : forall d,
    (let '(j', r) :=
       TinyJit.call (step_fxn S) (step_records J) (step_replay J)
         (jitted_step (set_dt e d)) (inputs_of (set_dt e d))
         (values_of (set_dt e d)) in
     commit (set_jitted_step (set_dt e d) j') r) =
    commit
      (set_jitted_step (set_dt e d)
         (fst (TinyJit.call (step_fxn S) (step_records J) (step_replay J)
                 (jitted_step e) (inputs_of e) (values_of (set_dt e d)))))
      (snd (TinyJit.call (step_fxn S) (step_records J) (step_replay J)
              (jitted_step e) (inputs_of e) (values_of (set_dt e d))))).
  { intros d.
    change (jitted_step (set_dt e d)) with (jitted_step e).
    change (inputs_of (set_dt e d)) with (inputs_of e).
    match goal with |- context [TinyJit.call ?a ?b ?c ?f ?g ?h] =>
      destruct (TinyJit.call a b c f g h) as [j' r] end. reflexivity. }
  unfold step, time_step_of. cbv zeta.
  destruct dt0 as [d|]; [destruct (py_ne d (dt e))|].
  - apply H.
  - rewrite <- (set_dt_same e) at 1 2 3 4. apply H.
  - rewrite <- (set_dt_same e) at 1 2 3 4. apply H.
Qed.

Lemma run_simulation_unfold (n : Z) (e : t) :
  run_simulation J S n e =
  let jr := TinyJit.call (n_step_fxn S) (n_step_schedules J) (n_step_replay J)
              (n_step_wrapper e) (inputs_of e) (values_of e, n) in
  commit (set_jitted_n_step e (fst jr)) (snd jr).
Proof.
  unfold run_simulation. cbv zeta.
  match goal with |- context [TinyJit.call ?a ?b ?c ?d ?f ?g] =>
    destruct (TinyJit.call a b c d f g) as [j' r] end; reflexivity.
Qed.

Lemma commit_raise (e : t) (r : Result BodyState) (ex : exn) :
  snd (commit e r) = Raise ex -> r = Raise ex /\ fst (commit e r) = e.
Proof. destruct r; cbn; [discriminate|]. intros H. now inversion H. Qed.

Lemma snd_commit (e : t) (r : Result BodyState) : snd (commit e r) = outcome r.
Proof. now destruct r. Qed.

Lemma body_store_commit (e : t) (r : Result BodyState) :
  body_store (fst (commit e r)) =
  match r with Ok st => st | Raise _ => body_store e end.
Proof. destruct r as [[[[x1 q1] v1] o1]|ex]; reflexivity. Qed.

Lemma immutable_commit (e : t) (r : Result BodyState) :
  immutable_attributes (fst (commit e r)) = immutable_attributes e.
Proof. destruct r as [[[[x1 q1] v1] o1]|ex]; reflexivity. Qed.

Lemma dt_commit (e : t) (r : Result BodyState) : dt (fst (commit e r)) = dt e.
Proof. destruct r as [[[[x1 q1] v1] o1]|ex]; reflexivity. Qed.

Lemma fixed_configuration_commit (e : t) (r : Result BodyState) :
  fixed_configuration (fst (commit e r)) = fixed_configuration e /\
  has_n_step_wrapper (fst (commit e r)) = has_n_step_wrapper e.
Proof. destruct r as [[[[? ?] ?] ?]|?]; split; reflexivity. Qed.

Lemma immutable_perform (c : call) (e : t) :
  immutable_attributes (fst (perform J S c e)) = immutable_attributes e.
Proof.
  destruct c as [dt0|n|x0 q0 v0 o0]; cbn [perform].
  - rewrite step_unfold. cbv zeta. now rewrite immutable_commit.
  - rewrite run_simulation_unfold. cbv zeta. now rewrite immutable_commit.
  - reflexivity.
Qed.

Lemma dt_perform (c : call) (e : t) :
  keeps_dt c = true -> dt (fst (perform J S c e)) = dt e.
Proof.
  destruct c as [[d|]|n|x0 q0 v0 o0]; cbn [perform keeps_dt]; intros H.
  - discriminate H.
  - rewrite step_unfold. cbv zeta. now rewrite dt_commit.
  - rewrite run_simulation_unfold. cbv zeta. now rewrite dt_commit.
  - reflexivity.
Qed.

Lemma dt_perform_all (cs : list call) (e : t) :
  forallb keeps_dt cs = true -> dt (perform_all J S cs e) = dt e.
Proof.
  unfold perform_all. revert e.
  induction cs as [|c cs IH]; intros e H; cbn [fold_left]; [reflexivity|].
  cbn [forallb] in H. apply andb_true_iff in H as [Hc Hcs].
  rewrite IH by exact Hcs. now apply dt_perform.
Qed.

Lemma fixed_configuration_perform (c : call) (e : t) :
  fixed_configuration (fst (perform J S c e)) = fixed_configuration e /\
  has_n_step_wrapper (fst (perform J S c e)) =
    has_n_step_wrapper e || is_run_steps c.
Proof.
  destruct c as [dt0|n|x0 q0 v0 o0]; cbn [perform is_run_steps].
  - rewrite step_unfold. cbv zeta.
    match goal with |- context [commit ?a ?r] =>
      destruct (fixed_configuration_commit a r) as [-> ->] end.
    split; [reflexivity|]. cbn. now rewrite orb_false_r.
  - rewrite run_simulation_unfold. cbv zeta.
    match goal with |- context [commit ?a ?r] =>
      destruct (fixed_configuration_commit a r) as [-> ->] end.
    split; [reflexivity|]. cbn. now rewrite orb_true_r.
  - split; [reflexivity|]. cbn. now rewrite orb_false_r.
Qed.

Lemma count_contacts_raises (c : Contacts) (ex : exn) :
  count_contacts c = Raise ex -> ex = IndexError.
Proof.
  unfold count_contacts, shape0.
  destruct (c !! "ids_a") as [ids|]; [|discriminate].
  destruct (nd_shape (numpy ids)); [|discriminate].
  intros H. now inversion H.
Qed.

Lemma physics_step_locals_raises x0 q0 v0 o0 im ii sk sp fr d g r it cc ex :
  physics_step_locals S x0 q0 v0 o0 im ii sk sp fr d g r it cc = Raise ex ->
  ex = IndexError \/ stage_raises S ex.
Proof.
  unfold physics_step_locals, stage_raises.
  destruct (predict_state S x0 q0 v0 o0 im ii g d)
    as [[[[xp qp] vn] on]|e1] eqn:E1; cbn [bind];
    [|intros H; inversion H; subst; right; left; eauto 10].
  destruct (uniform_spatial_hash S xp sk sp) as [pairs|e2] eqn:E2; cbn [bind];
    [|intros H; inversion H; subst; right; right; left; eauto 10].
  destruct (generate_contacts S xp qp pairs sk sp fr cc) as [c|e3] eqn:E3;
    cbn [bind];
    [|intros H; inversion H; subst; right; right; right; left; eauto 10].
  destruct (solve_constraints S xp qp c im ii d it) as [[xj qj]|e4] eqn:E4;
    cbn [bind];
    [|intros H; inversion H; subst; right; right; right; right; left; eauto 10].
  destruct (reconcile_velocities S xj qj x0 q0 vn on d) as [[vr wr]|e5] eqn:E5;
    cbn [bind];
    [|intros H; inversion H; subst; do 5 right; left; eauto 10].
  destruct (count_contacts c) as [k|e6] eqn:E6; cbn [bind];
    [|intros H; inversion H; subst; left; eapply count_contacts_raises; eauto].
  destruct (solve_velocities S vr wr c im ii d (Tensor_zeros k) r)
    as [[vf wf]|e7] eqn:E7; cbn [bind]; [discriminate|].
  intros H; inversion H; subst. do 6 right. eauto 10.
Qed.

Lemma physics_step_static_raises x0 q0 v0 o0 im ii sk sp fr d g r it cc ex :
  _physics_step_static S x0 q0 v0 o0 im ii sk sp fr d g r it cc = Raise ex ->
  ex = IndexError \/ stage_raises S ex.
Proof.
  unfold _physics_step_static. intros H.
  match type of H with
  | bind ?r _ = _ => destruct r as [l|e1] eqn:E
  end; cbn [bind] in H; [discriminate|].
  inversion H; subst. eapply physics_step_locals_raises; eauto.
Qed.

Lemma n_step_loop_raises (k : nat) st im ii sk sp fr d g r it cc ex :
  n_step_loop S k st im ii sk sp fr d g r it cc = Raise ex ->
  ex = IndexError \/ stage_raises S ex.
Proof.
  revert st. induction k as [|k IH]; intros [[[x0 q0] v0] o0]; cbn [n_step_loop];
    [discriminate|].
  destruct (_physics_step_static S x0 q0 v0 o0 im ii sk sp fr d g r it cc)
    as [st'|e1] eqn:E; cbn [bind].
  - apply IH.
  - intros H. inversion H; subst. eapply physics_step_static_raises; eauto.
Qed.
End DriverFacts.

Lemma scene_constructed : scene_engine = Ok scene.
Proof. reflexivity. Qed.

(** Python's [==] on floats identifies two floats only when they are the
    same value or two zeros. *)
Lemma py_eq_same (a b : pyfloat) :
  py_eq a b = true -> a = b \/ (is_zero_float a = true /\ is_zero_float b = true).
Proof.
  unfold py_eq, SFeqb.
  destruct a as [sa|sa| |sa ma ea], b as [sb|sb| |sb mb eb]; cbn;
    try discriminate; try (destruct sa; discriminate);
    try (destruct sb; discriminate).
  - intros _. right. split; reflexivity.
  - destruct sa, sb; try discriminate; intros _; now left.
  - destruct sa, sb; try discriminate;
      destruct (Z.compare_spec ea eb) as [He|He|He]; try discriminate;
      change (Pos.compare_cont Eq ma mb) with (Pos.compare ma mb);
      destruct (Pos.compare_spec ma mb) as [Hm|Hm|Hm]; cbn;
      try discriminate; intros _; left; now subst.
Qed.

Lemma py_eq_refl (f : pyfloat) : f <> S754_nan -> py_eq f f = true.
Proof.
  unfold py_eq, SFeqb. destruct f as [s|s| |s m e]; cbn; intros H.
  - reflexivity.
  - now destruct s.
  - congruence.
  - change (Pos.compare_cont Eq m m) with (Pos.compare m m).
    destruct s; now rewrite Z.compare_refl, Pos.compare_refl.
Qed.

Lemma py_eq_sym (a b : pyfloat) : py_eq a b = true -> py_eq b a = true.
Proof.
  intros H. destruct (py_eq_same a b H) as [->|[Ha Hb]]; [exact H|].
  destruct a, b; try discriminate. reflexivity.
Qed.

(** ** The claims on the driver *)

(** C2, as it holds. Construction checks neither the lengths of the arrays
    nor the shape parameters: it succeeds when the friction array is passed
    or the position array has a dimension, and raises [TypeError] otherwise.
    [set_state] always succeeds. The step function and the n-step function
    of the driver raise only what a pipeline stage raises, or [IndexError]
    when the tensor [ids_a] of the contacts has no dimension: the driver
    raises no [ConfigurationError] of its own. *)
Theorem construct_does_not_validate (S : xpbd) :
  (forall x0 q0 v0 o0 im ii sk sp fr g d r it cc,
     (fr <> None \/ nd_shape x0 <> []) ->
     is_ok (__init__ x0 q0 v0 o0 im ii sk sp fr g d r it cc) = true) /\
  (forall x0 q0 v0 o0 im ii sk sp fr g d r it cc ex,
     __init__ x0 q0 v0 o0 im ii sk sp fr g d r it cc = Raise ex ->
     ex = TypeError /\ fr = None /\ nd_shape x0 = []) /\
  (forall x0 q0 v0 o0 e, snd (set_state x0 q0 v0 o0 e) = Ok tt) /\
  (forall x0 q0 v0 o0 im ii sk sp fr d g r it cc ex,
     _physics_step_static S x0 q0 v0 o0 im ii sk sp fr d g r it cc = Raise ex ->
     ex = IndexError \/ stage_raises S ex) /\
  (forall x0 q0 v0 o0 im ii sk sp fr d g n r it cc ex,
     _n_step_simulation S x0 q0 v0 o0 im ii sk sp fr d g n r it cc = Raise ex ->
     ex = IndexError \/ stage_raises S ex).
Proof.
  split; [|split; [|split; [|split]]].
  - intros x0 q0 v0 o0 im ii sk sp [f|] g d r it cc H; [reflexivity|].
    unfold __init__, len. destruct H as [H|H]; [congruence|].
    destruct (nd_shape x0); [congruence|reflexivity].
  - intros x0 q0 v0 o0 im ii sk sp [f|] g d r it cc ex; [discriminate|].
    unfold __init__, len. destruct (nd_shape x0); [|discriminate].
    cbn [bind]. intros H. now inversion H.
  - reflexivity.
  - intros. eapply physics_step_static_raises; eauto.
  - intros. eapply n_step_loop_raises; eauto.
Qed.

Lemma construct_does_not_validate_witness :
  nd_shape scene_x <> [] /\
  is_ok (__init__ scene_x scene_q scene_v scene_v short_inv_mass
           scene_inv_inertia scene_shape_type negative_radius None None None
           None None None) = true.
Proof.
  assert (H : nd_shape scene_x <> []) by discriminate.
  split; [exact H|].
  apply (proj1 (construct_does_not_validate recording_probe)). right. exact H.
Defined.

(** C2, as stated, fails: construction succeeds on two positions with one
    inverse mass and a sphere of radius -1. *)
Lemma construct_accepts_invalid_arrays :
  let r := __init__ scene_x scene_q scene_v scene_v short_inv_mass
             scene_inv_inertia scene_shape_type negative_radius None None None
             None None None in
  len scene_x = Ok 2%nat /\ len short_inv_mass = Ok 1%nat /\
  is_ok r = true /\ r <> Raise ConfigurationError.
Proof.
  cbv zeta. split; [reflexivity|]. split; [reflexivity|].
  split; [reflexivity|]. discriminate.
Qed.

(** C1, on the code. In every run of the step, the accumulated impulses the
    velocity solver is given are [Tensor.zeros((num_contacts,))]: zero for
    each contact, whatever the position solver did; the position solver
    gives back the projected poses only. *)
Theorem velocity_solver_lambda_is_zero (S : xpbd)
    x0 q0 v0 o0 im ii sk sp fr d g r it cc (l : step_locals) :
  physics_step_locals S x0 q0 v0 o0 im ii sk sp fr d g r it cc = Ok l ->
  count_contacts (contacts l) = Ok (num_contacts l) /\
  lambda_acc l = Tensor_zeros (num_contacts l) /\
  nd_data (numpy (lambda_acc l)) =
    NpFloat (repeat (S754_zero false) (num_contacts l)) /\
  solve_constraints S (x_pred l) (q_pred l) (contacts l) im ii d it =
    Ok (x_proj l, q_proj l) /\
  solve_velocities S (v_reconciled l) (omega_reconciled l) (contacts l) im ii d
    (Tensor_zeros (num_contacts l)) r = Ok (v_final l, omega_final l) /\
  _physics_step_static S x0 q0 v0 o0 im ii sk sp fr d g r it cc =
    Ok (x_proj l, q_proj l, v_final l, omega_final l).
Proof.
  intros H. unfold _physics_step_static. rewrite H. cbn [bind].
  revert H. unfold physics_step_locals.
  destruct (predict_state S x0 q0 v0 o0 im ii g d)
    as [[[[xp qp] vn] on]|e1]; cbn [bind]; [|discriminate].
  destruct (uniform_spatial_hash S xp sk sp) as [pairs|e2]; cbn [bind];
    [|discriminate].
  destruct (generate_contacts S xp qp pairs sk sp fr cc) as [c|e3]; cbn [bind];
    [|discriminate].
  destruct (solve_constraints S xp qp c im ii d it) as [[xj qj]|e4] eqn:E4;
    cbn [bind]; [|discriminate].
  destruct (reconcile_velocities S xj qj x0 q0 vn on d) as [[vr wr]|e5];
    cbn [bind]; [|discriminate].
  destruct (count_contacts c) as [k|e6] eqn:E6; cbn [bind]; [|discriminate].
  destruct (solve_velocities S vr wr c im ii d (Tensor_zeros k) r)
    as [[vf wf]|e7] eqn:E7; cbn [bind]; [|discriminate].
  intros H. inversion H; subst; clear H. cbn.
  repeat split; assumption.
Qed.

(** On the scene, with stages that report one contact and hand the
    impulses they are given back as the velocity: the velocity after the step
    is the zero tensor of one contact. *)
Lemma velocity_solver_lambda_is_zero_witness :
  _physics_step_static lambda_probe (x scene) (q scene) (v scene) (omega scene)
    (inv_mass scene) (inv_inertia scene) (shape_type scene) (shape_params scene)
    (friction scene) (dt scene) (gravity scene) (restitution scene)
    (solver_iterations scene) (contact_compliance scene) =
  Ok (x scene, q scene, Tensor_zeros 1, omega scene).
Proof.
  pose (l := {| x_pred := x scene; q_pred := q scene; v_new := v scene;
                omega_new := omega scene; contacts := one_contact;
                x_proj := x scene; q_proj := q scene;
                v_reconciled := v scene; omega_reconciled := omega scene;
                num_contacts := 1; lambda_acc := Tensor_zeros 1;
                v_final := Tensor_zeros 1; omega_final := omega scene |}).
  assert (H : physics_step_locals lambda_probe (x scene) (q scene) (v scene)
                (omega scene) (inv_mass scene) (inv_inertia scene)
                (shape_type scene) (shape_params scene) (friction scene)
                (dt scene) (gravity scene) (restitution scene)
                (solver_iterations scene) (contact_compliance scene) = Ok l)
    by reflexivity.
  exact (proj2 (proj2 (proj2 (proj2 (proj2
    (velocity_solver_lambda_is_zero lambda_probe _ _ _ _ _ _ _ _ _ _ _ _ _ _ l H)))))).
Defined.

(** C7. [set_state] assigns position, orientation, linear velocity and
    angular velocity and nothing else; inverse mass, inverse inertia, shape
    kind, shape parameters and friction are the same after every call of
    [set_state], [step] and [run_simulation], and so after every sequence of
    such calls. *)
Theorem shape_mass_friction_immutable (J : tracer) (S : xpbd) :
  (forall x0 q0 v0 omega0 e,
     fst (set_state x0 q0 v0 omega0 e) =
     mk (TensorOf (astype_float32 x0)) (TensorOf (astype_float32 q0))
        (TensorOf (astype_float32 v0)) (TensorOf (astype_float32 omega0))
        (inv_mass e) (inv_inertia e) (shape_type e) (shape_params e)
        (friction e) (gravity e) (dt e) (restitution e) (solver_iterations e)
        (contact_compliance e) (jitted_step e) (jitted_n_step e)) /\
  (forall c e,
     immutable_attributes (fst (perform J S c e)) = immutable_attributes e) /\
  (forall cs e,
     immutable_attributes (perform_all J S cs e) = immutable_attributes e).
Proof.
  split; [reflexivity|]. split; [apply immutable_perform|].
  intros cs. unfold perform_all.
  induction cs as [|c cs IH]; intros e; cbn [fold_left]; [reflexivity|].
  rewrite IH. apply immutable_perform.
Qed.

(** * Further properties of the driver *)

Section FloatArrays.

(** Rounding to float32 is exact on a float32 value. *)
Lemma to_float32_exact (f : spec_float) :
  valid_binary 24 128 f = true -> to_float32 f = f.
Proof.
  destruct f as [s|s| |s m e]; try reflexivity.
  cbn [valid_binary to_float32]. unfold bounded, canonical_mantissa.
  intros H. apply andb_true_iff in H as [Hc He].
  apply Z.eqb_eq in Hc.
  unfold binary_round, shl_align. rewrite Hc, Z.sub_diag.
  unfold binary_round_aux, shr_fexp. cbn [Zdigits2]. rewrite Hc, Z.sub_diag.
  cbn [shr shr_record_of_loc shr_m loc_of_shr_record round_nearest_even Zdigits2].
  rewrite Hc, Z.sub_diag. cbn [shr shr_m]. now rewrite He.
Qed.

Lemma map_to_float32_exact (l : list spec_float) :
  forallb (valid_binary 24 128) l = true -> map to_float32 l = l.
Proof.
  induction l as [|f l IH]; cbn [forallb map]; [reflexivity|].
  intros H. apply andb_true_iff in H as [Hf Hl].
  now rewrite to_float32_exact, IH.
Qed.

Lemma astype_float32_exact (a : ndarray) :
  holds_float32 a = true -> astype_float32 a = a.
Proof.
  destruct a as [sh [l|l]]; unfold holds_float32, astype_float32; cbn;
    [|discriminate].
  intros H. now rewrite map_to_float32_exact.
Qed.

Lemma wrap_int32_exact (z : Z) :
  (- 2 ^ 31 <=? z) && (z <? 2 ^ 31) = true -> wrap_int32 z = z.
Proof.
  intros H. apply andb_true_iff in H as [Hl Hu].
  apply Z.leb_le in Hl. apply Z.ltb_lt in Hu.
  unfold wrap_int32. rewrite Z.mod_small; lia.
Qed.

Lemma astype_int32_exact (a : ndarray) :
  holds_int32 a = true -> astype_int32 a = a.
Proof.
  destruct a as [sh [l|l]]; unfold holds_int32, astype_int32; cbn;
    [discriminate|].
  intros H. f_equal. f_equal.
  induction l as [|z l IH]; cbn [forallb map] in *; [reflexivity|].
  apply andb_true_iff in H as [Hz Hl].
  now rewrite wrap_int32_exact, IH.
Qed.

End FloatArrays.

(** ** Reading and writing the state *)

(** X2. After [set_state], [get_state] returns the four arrays that were
    passed, converted to float32, and the other four entries as before. *)
Theorem get_state_after_set_state (x0 q0 v0 omega0 : ndarray) (e : t) :
  get_state (fst (set_state x0 q0 v0 omega0 e)) =
  <["x" := astype_float32 x0]>
    (<["q" := astype_float32 q0]>
       (<["v" := astype_float32 v0]>
          (<["omega" := astype_float32 omega0]> (get_state e)))).
Proof.
  unfold get_state, set_state. cbn [fst assign_state x q v omega inv_mass
    inv_inertia shape_type shape_params numpy].
  apply map_eq. intros k.
  repeat (rewrite lookup_insert; case_decide; [reflexivity|]).
  reflexivity.
Qed.

(** X3. Writing back what [get_state] returns changes nothing: when the
    position, orientation and velocities of the engine hold float32 values,
    [set_state] on the entries x, q, v and omega of [get_state] succeeds and
    leaves the engine as it is. *)
Theorem set_state_of_get_state (e : t) (x0 q0 v0 omega0 : ndarray) :
  get_state e !! "x" = Some x0 -> get_state e !! "q" = Some q0 ->
  get_state e !! "v" = Some v0 -> get_state e !! "omega" = Some omega0 ->
  holds_float32 x0 = true -> holds_float32 q0 = true ->
  holds_float32 v0 = true -> holds_float32 omega0 = true ->
  set_state x0 q0 v0 omega0 e = (e, Ok tt).
Proof.
  unfold get_state. intros Hx Hq Hv Ho.
  rewrite lookup_insert_eq in Hx.
  rewrite lookup_insert_ne, lookup_insert_eq in Hq by done.
  rewrite !lookup_insert_ne, lookup_insert_eq in Hv by done.
  rewrite !lookup_insert_ne, lookup_insert_eq in Ho by done.
  inversion Hx; inversion Hq; inversion Hv; inversion Ho; subst.
  intros Fx Fq Fv Fo. unfold set_state.
  rewrite !astype_float32_exact by assumption.
  destruct e as [[x1] [q1] [v1] [o1] ? ? ? ? ? ? ? ? ? ? ? ?]; reflexivity.
Qed.

Lemma set_state_of_get_state_witness :
  holds_float32 (numpy (x scene)) = true /\
  set_state (numpy (x scene)) (numpy (q scene)) (numpy (v scene))
    (numpy (omega scene)) scene = (scene, Ok tt).
Proof.
  split; [reflexivity|].
  apply set_state_of_get_state; reflexivity.
Defined.

(** X4. After construction, [get_state] returns the eight arrays that were
    passed, converted to float32 (to int32 for the shape kinds); arrays that
    hold float32 values (int32 values for the shape kinds) are returned as
    they were passed. *)
Theorem get_state_after_construct
    (x0 q0 v0 o0 im ii sk sp : ndarray) (fr g : option ndarray)
    (d r : option pyfloat) (it : option Z) (cc : option pyfloat) (e : t) :
  __init__ x0 q0 v0 o0 im ii sk sp fr g d r it cc = Ok e ->
  get_state e =
    {[ "x" := astype_float32 x0; "q" := astype_float32 q0;
       "v" := astype_float32 v0; "omega" := astype_float32 o0;
       "inv_mass" := astype_float32 im; "inv_inertia" := astype_float32 ii;
       "shape_type" := astype_int32 sk; "shape_params" := astype_float32 sp ]} /\
  (holds_float32 x0 = true -> holds_float32 q0 = true ->
   holds_float32 v0 = true -> holds_float32 o0 = true ->
   holds_float32 im = true -> holds_float32 ii = true ->
   holds_int32 sk = true -> holds_float32 sp = true ->
   get_state e =
     {[ "x" := x0; "q" := q0; "v" := v0; "omega" := o0; "inv_mass" := im;
        "inv_inertia" := ii; "shape_type" := sk; "shape_params" := sp ]}).
Proof.
  intros H.
  assert (Hg : get_state e =
    {[ "x" := astype_float32 x0; "q" := astype_float32 q0;
       "v" := astype_float32 v0; "omega" := astype_float32 o0;
       "inv_mass" := astype_float32 im; "inv_inertia" := astype_float32 ii;
       "shape_type" := astype_int32 sk; "shape_params" := astype_float32 sp ]}).
  { unfold __init__ in H.
    destruct fr as [f|]; cbn [bind] in H.
    - inversion H; subst. reflexivity.
    - destruct (len x0) as [n|ex]; cbn [bind] in H; [|discriminate].
      inversion H; subst. reflexivity. }
  split; [exact Hg|].
  intros Fx Fq Fv Fo Fim Fii Fsk Fsp. rewrite Hg.
  rewrite !astype_float32_exact by assumption.
  now rewrite astype_int32_exact.
Qed.

Lemma get_state_after_construct_witness :
  holds_float32 (numpy (shape_params scene)) = true /\
  get_state scene !! "shape_params" = Some (numpy (shape_params scene)).
Proof.
  split; [reflexivity|].
  assert (H : __init__ (numpy (x scene)) (numpy (q scene)) (numpy (v scene))
                (numpy (omega scene)) (numpy (inv_mass scene))
                (numpy (inv_inertia scene)) (numpy (shape_type scene))
                (numpy (shape_params scene)) None None None None None None
              = Ok scene) by reflexivity.
  destruct (get_state_after_construct _ _ _ _ _ _ _ _ _ _ _ _ _ _ _ H) as [_ Hg].
  rewrite Hg by reflexivity. reflexivity.
Defined.

(** X5. When the friction array is omitted and the position array has [n]
    rows, construction succeeds and the friction of the engine is the
    float32 array of [n] entries 0.5, whatever the lengths of the other
    arrays. *)
Theorem default_friction (x0 q0 v0 o0 im ii sk sp : ndarray)
    (g : option ndarray) (d r : option pyfloat) (it : option Z)
    (cc : option pyfloat) (n : nat) (rest : list nat) :
  nd_shape x0 = n :: rest ->
  exists e,
    __init__ x0 q0 v0 o0 im ii sk sp None g d r it cc = Ok e /\
    numpy (friction e) = mk_ndarray [n] (NpFloat (repeat half32 n)).
Proof.
  intros H. unfold __init__, len. rewrite H. cbn [bind].
  eexists. split; [reflexivity|].
  cbn [friction numpy]. unfold astype_float32, np_mul, np_ones.
  cbn [nd_shape nd_data]. f_equal. f_equal.
  rewrite !map_repeat. reflexivity.
Qed.

Lemma default_friction_witness :
  nd_shape scene_x = [2; 3]%nat /\
  exists e,
    __init__ scene_x scene_q scene_v scene_v short_inv_mass scene_inv_inertia
      scene_shape_type scene_shape_params None None None None None None = Ok e /\
    numpy (friction e) = mk_ndarray [2%nat] (NpFloat (repeat half32 2)).
Proof.
  split; [reflexivity|].
  exact (default_friction scene_x scene_q scene_v scene_v short_inv_mass
           scene_inv_inertia scene_shape_type scene_shape_params None None None
           None None 2%nat [3%nat] eq_refl).
Defined.

(** ** Failures *)

Section Failures.
Context (J : tracer) (S : xpbd).

(** A call of [step] that raises assigns nothing but the time step. *)
Lemma step_raise (dt0 : option pyfloat) (e : t) (ex : exn) :
  snd (step J S dt0 e) = Raise ex ->
  fst (step J S dt0 e) = set_dt e (time_step_of dt0 e).
Proof.
  rewrite step_unfold. cbv zeta. intros H.
  destruct (commit_raise _ _ _ H) as [Hr ->].
  rewrite (call_raise _ _ _ _ _ _ _ Hr).
  change (jitted_step e) with (jitted_step (set_dt e (time_step_of dt0 e))).
  now rewrite set_jitted_step_same.
Qed.

(** X6. A call of [step] that raises leaves position, orientation and
    velocities as they were; the time step it was passed is stored all the
    same when it differs from the stored one. *)
Theorem step_failure_keeps_state (dt0 : option pyfloat) (e : t) (ex : exn) :
  snd (step J S dt0 e) = Raise ex ->
  fst (step J S dt0 e) = set_dt e (time_step_of dt0 e) /\
  body_store (fst (step J S dt0 e)) = body_store e.
Proof.
  intros H. rewrite (step_raise dt0 e ex H). split; reflexivity.
Qed.

(** X7. A call of [run_simulation] that raises assigns none of the steps it
    ran, however many of them succeeded before the failure: position,
    orientation and velocities are the ones before the call, and only the
    creation of the wrapper of the n-step function is recorded. *)
Theorem run_simulation_failure_keeps_state (n : Z) (e : t) (ex : exn) :
  snd (run_simulation J S n e) = Raise ex ->
  fst (run_simulation J S n e) = with_n_step_wrapper e /\
  body_store (fst (run_simulation J S n e)) = body_store e.
Proof.
  rewrite run_simulation_unfold. cbv zeta. intros H.
  destruct (commit_raise _ _ _ H) as [Hr ->].
  rewrite (call_raise _ _ _ _ _ _ _ Hr). split; reflexivity.
Qed.

(** X8. Calls of [step()] in sequence keep what the calls before a failure
    did: when the sequence raises, some number [j] of calls succeeded, the
    engine is the one after these [j] calls, and the next call of [step()]
    on it raises that exception. *)
Theorem step_n_failure_keeps_progress (k : nat) (e : t) (ex : exn) :
  snd (step_n J S k e) = Raise ex ->
  exists j, (j < k)%nat /\
    snd (step_n J S j e) = Ok tt /\
    fst (step_n J S k e) = fst (step_n J S j e) /\
    step J S None (fst (step_n J S j e)) = (fst (step_n J S j e), Raise ex).
Proof.
  revert e. induction k as [|k IH]; intros e; cbn [step_n]; [discriminate|].
  destruct (step J S None e) as [e' [[]|ex']] eqn:E.
  - intros H. destruct (IH _ H) as (j & Hj & Hok & Hfst & Hp).
    exists (Datatypes.S j). cbn [step_n]. rewrite E.
    repeat split; try assumption. lia.
  - cbn [snd fst]. intros H. inversion H; subst.
    assert (Hs : snd (step J S None e) = Raise ex) by now rewrite E.
    pose proof (step_raise None e ex Hs) as He.
    rewrite E in He. cbn [fst time_step_of] in He.
    rewrite set_dt_same in He. subst e'.
    exists O. cbn [step_n fst snd]. repeat split; [lia|exact E].
Qed.

(** X9. [run_simulation] with a number of steps that is zero or negative
    runs no step. On the first call of the wrapper of the n-step function it
    succeeds and leaves position, orientation and velocities as they were.
    On the second call of the wrapper, which is to capture kernels and finds
    none, it raises [JitError] and leaves the engine as it was. *)
Theorem run_simulation_nonpositive (n : Z) (e : t) :
  n <= 0 ->
  (TinyJit.cnt (n_step_wrapper e) = O ->
   snd (run_simulation J S n e) = Ok tt /\
   body_store (fst (run_simulation J S n e)) = body_store e /\
   option_map TinyJit.cnt (jitted_n_step (fst (run_simulation J S n e))) =
     Some 1%nat) /\
  (forall j, jitted_n_step e = Some j -> TinyJit.cnt j = 1%nat ->
   run_simulation J S n e = (e, Raise JitError)).
Proof.
  intros Hn.
  assert (Hf : forall i, n_step_fxn S i (values_of e, n) =
                         Ok (in_x i, in_q i, in_v i, in_omega i)).
  { intros i. unfold n_step_fxn, _n_step_simulation. cbn [snd fst].
    replace (Z.to_nat n) with O by lia. reflexivity. }
  split.
  - intros Hc. rewrite run_simulation_unfold. cbv zeta.
    rewrite (call_first _ _ _ _ _ _ Hc), Hf.
    repeat split.
  - intros j Hj Hc. rewrite run_simulation_unfold. cbv zeta.
    unfold n_step_wrapper. rewrite Hj. cbn [default].
    rewrite (call_capture _ _ _ _ _ _ Hc), Hf.
    unfold n_step_schedules. cbn [snd].
    replace (0 <? n) with false by (symmetry; apply Z.ltb_ge; lia).
    cbn [andb fst snd commit]. f_equal.
    destruct e. cbn in *. now subst.
Qed.
End Failures.

Lemma step_failure_keeps_state_witness :
  snd (step (tracing second_step_fails) second_step_fails (Some dt_0004)
         (fst (step (tracing second_step_fails) second_step_fails None scene)))
    = Raise RuntimeError /\
  dt (fst (step (tracing second_step_fails) second_step_fails (Some dt_0004)
             (fst (step (tracing second_step_fails) second_step_fails None
                     scene)))) = dt_0004 /\
  body_store
    (fst (step (tracing second_step_fails) second_step_fails (Some dt_0004)
            (fst (step (tracing second_step_fails) second_step_fails None
                    scene)))) =
  body_store (fst (step (tracing second_step_fails) second_step_fails None scene)).
Proof.
  pose (e1 := fst (step (tracing second_step_fails) second_step_fails None scene)).
  assert (H : snd (step (tracing second_step_fails) second_step_fails
                     (Some dt_0004) e1) = Raise RuntimeError) by reflexivity.
  destruct (step_failure_keeps_state (tracing second_step_fails)
              second_step_fails (Some dt_0004) e1 _ H) as [He Hs].
  split; [exact H|]. split; [|exact Hs].
  fold e1. rewrite He. reflexivity.
Defined.

Lemma run_simulation_failure_keeps_state_witness :
  snd (step (tracing second_step_fails) second_step_fails None scene) = Ok tt /\
  snd (run_simulation (tracing second_step_fails) second_step_fails 3 scene)
    = Raise RuntimeError /\
  body_store
    (fst (run_simulation (tracing second_step_fails) second_step_fails 3 scene))
    = body_store scene.
Proof.
  assert (H : snd (run_simulation (tracing second_step_fails) second_step_fails
                     3 scene) = Raise RuntimeError) by reflexivity.
  split; [reflexivity|]. split; [exact H|].
  exact (proj2 (run_simulation_failure_keeps_state (tracing second_step_fails)
                  second_step_fails 3 scene _ H)).
Defined.

Lemma step_n_failure_keeps_progress_witness :
  snd (step_n (tracing second_step_fails) second_step_fails 3 scene)
    = Raise RuntimeError /\
  exists j, (j < 3)%nat /\
    snd (step_n (tracing second_step_fails) second_step_fails j scene) = Ok tt /\
    fst (step_n (tracing second_step_fails) second_step_fails 3 scene) =
    fst (step_n (tracing second_step_fails) second_step_fails j scene) /\
    step (tracing second_step_fails) second_step_fails None
      (fst (step_n (tracing second_step_fails) second_step_fails j scene)) =
    (fst (step_n (tracing second_step_fails) second_step_fails j scene),
     Raise RuntimeError).
Proof.
  assert (H : snd (step_n (tracing second_step_fails) second_step_fails 3 scene)
              = Raise RuntimeError) by reflexivity.
  split; [exact H|].
  exact (step_n_failure_keeps_progress (tracing second_step_fails)
           second_step_fails 3 scene _ H).
Defined.

Lemma run_simulation_nonpositive_witness :
  -3 <= 0 /\
  snd (run_simulation (tracing recording_probe) recording_probe (-3) scene)
    = Ok tt /\
  run_simulation (tracing recording_probe) recording_probe (-3)
    (fst (run_simulation (tracing recording_probe) recording_probe (-3) scene)) =
  (fst (run_simulation (tracing recording_probe) recording_probe (-3) scene),
   Raise JitError).
Proof.
  assert (H : -3 <= 0) by lia.
  split; [exact H|]. split.
  - exact (proj1 (proj1 (run_simulation_nonpositive (tracing recording_probe)
                           recording_probe (-3) scene H) eq_refl)).
  - exact (proj2 (run_simulation_nonpositive (tracing recording_probe)
                    recording_probe (-3)
                    (fst (run_simulation (tracing recording_probe)
                            recording_probe (-3) scene)) H)
             (TinyJit.mk_state 1%nat None) eq_refl eq_refl).
Defined.

(** ** Composition of runs *)

Section Composition.
Context (S : xpbd).

Lemma n_step_loop_add (a b : nat) st im ii sk sp fr d g r it cc :
  n_step_loop S (a + b) st im ii sk sp fr d g r it cc =
  let** st' := n_step_loop S a st im ii sk sp fr d g r it cc in
  n_step_loop S b st' im ii sk sp fr d g r it cc.
Proof.
  revert st. induction a as [|a IH]; intros [[[x0 q0] v0] o0]; [reflexivity|].
  cbn [Nat.add n_step_loop].
  destruct (_physics_step_static S x0 q0 v0 o0 im ii sk sp fr d g r it cc)
    as [st'|ex]; cbn [bind]; [apply IH|reflexivity].
Qed.

(** X10. The n-step function composes: for [a] and [b] that are not
    negative, [a + b] steps are [a] steps followed by [b] steps on their
    result, and raise what the first of the two runs to fail raises. *)
Theorem n_step_simulation_add x0 q0 v0 o0 im ii sk sp fr d g (a b : Z) r it cc :
  0 <= a -> 0 <= b ->
  _n_step_simulation S x0 q0 v0 o0 im ii sk sp fr d g (a + b) r it cc =
  let** st := _n_step_simulation S x0 q0 v0 o0 im ii sk sp fr d g a r it cc in
  _n_step_simulation S (fst (fst (fst st))) (snd (fst (fst st))) (snd (fst st))
    (snd st) im ii sk sp fr d g b r it cc.
Proof.
  intros Ha Hb. unfold _n_step_simulation.
  rewrite Z2Nat.inj_add by assumption. rewrite n_step_loop_add.
  destruct (n_step_loop S (Z.to_nat a) (x0, q0, v0, o0) im ii sk sp fr d g r it cc)
    as [[[[x1 q1] v1] o1]|ex]; reflexivity.
Qed.
End Composition.

Lemma n_step_simulation_add_witness :
  0 <= 2 /\ 0 <= 3 /\
  exists st,
    _n_step_simulation recording_probe (x scene) (q scene) (v scene)
      (omega scene) (inv_mass scene) (inv_inertia scene) (shape_type scene)
      (shape_params scene) (friction scene) (dt scene) (gravity scene) (2 + 3)
      (restitution scene) (solver_iterations scene) (contact_compliance scene)
    = Ok st /\
    length (nd_shape (numpy (snd st))) = (dimensions scene + 5)%nat.
Proof.
  assert (Ha : 0 <= 2) by lia. assert (Hb : 0 <= 3) by lia.
  split; [exact Ha|]. split; [exact Hb|].
  eexists. split.
  - rewrite (n_step_simulation_add recording_probe _ _ _ _ _ _ _ _ _ _ _ 2 3
               _ _ _ Ha Hb).
    reflexivity.
  - reflexivity.
Defined.

(** ** The stored time step and the configuration *)

(** X11. After a call [step(d)], succeeding or not, the stored time step
    compares equal to [d]; when [d] is NaN, which compares equal to nothing,
    NaN is stored. *)
Theorem stored_dt_after_step (J : tracer) (S : xpbd) (d : pyfloat) (e : t) :
  let e' := fst (step J S (Some d) e) in
  (d = S754_nan -> dt e' = S754_nan) /\
  (d <> S754_nan -> py_eq (dt e') d = true).
Proof.
  cbv zeta. rewrite step_unfold. cbv zeta. rewrite dt_commit.
  cbn [dt set_dt set_jitted_step time_step_of].
  unfold py_ne. split.
  - intros ->. reflexivity.
  - intros Hd. destruct (SFeqb d (dt e)) eqn:E; cbn [negb].
    + now apply py_eq_sym.
    + now apply py_eq_refl.
Qed.

Lemma stored_dt_after_step_witness :
  dt_0004 <> S754_nan /\
  py_eq (dt (fst (step (tracing second_step_fails) second_step_fails
                    (Some dt_0004) scene))) dt_0004 = true.
Proof.
  assert (H : dt_0004 <> S754_nan) by discriminate.
  split; [exact H|].
  exact (proj2 (stored_dt_after_step (tracing second_step_fails)
                  second_step_fails dt_0004 scene) H).
Defined.

(** X12. No sequence of calls of [step], [run_simulation] and [set_state]
    changes the gravity, the restitution, the number of solver iterations or
    the contact compliance of the engine; the wrapper of the n-step
    function, once created, stays, and it is created by [run_simulation]
    alone. *)
Theorem configuration_fixed (J : tracer) (S : xpbd) (cs : list call) (e : t) :
  fixed_configuration (perform_all J S cs e) = fixed_configuration e /\
  has_n_step_wrapper (perform_all J S cs e) =
    has_n_step_wrapper e || existsb is_run_steps cs.
Proof.
  unfold perform_all. revert e.
  induction cs as [|c cs IH]; intros e; cbn [fold_left existsb].
  - split; [reflexivity|]. now rewrite orb_false_r.
  - destruct (IH (fst (perform J S c e))) as [-> ->].
    destruct (fixed_configuration_perform J S c e) as [-> ->].
    split; [reflexivity|]. now rewrite orb_assoc.
Qed.

(** ** The contacts of a step *)

Section Wiring.
Context (S : xpbd).

(** X15. When the entry [ids_a] of the contact record has no dimension, the
    step raises [IndexError] after the position solver and
    [reconcile_velocities] have run, and before the velocity solver; nothing
    is assigned to the engine. *)
Theorem scalar_ids_a_raises x0 q0 v0 o0 im ii sk sp fr d g r it cc
    xp qp vn on pairs (c : Contacts) xj qj vr wr (ids_a : Tensor) :
  predict_state S x0 q0 v0 o0 im ii g d = Ok (xp, qp, vn, on) ->
  uniform_spatial_hash S xp sk sp = Ok pairs ->
  generate_contacts S xp qp pairs sk sp fr cc = Ok c ->
  solve_constraints S xp qp c im ii d it = Ok (xj, qj) ->
  reconcile_velocities S xj qj x0 q0 vn on d = Ok (vr, wr) ->
  c !! "ids_a" = Some ids_a ->
  nd_shape (numpy ids_a) = [] ->
  _physics_step_static S x0 q0 v0 o0 im ii sk sp fr d g r it cc =
    Raise IndexError.
Proof.
  intros E1 E2 E3 E4 E5 Hc Hs.
  unfold _physics_step_static, physics_step_locals.
  rewrite E1. cbn [bind]. rewrite E2. cbn [bind]. rewrite E3. cbn [bind].
  rewrite E4. cbn [bind]. rewrite E5. cbn [bind].
  unfold count_contacts, shape0. rewrite Hc, Hs. reflexivity.
Qed.
End Wiring.

Lemma scalar_ids_a_raises_witness :
  nd_shape (numpy scalar_ids) = [] /\
  pipeline scalar_ids_probe scene (dt scene) = Raise IndexError /\
  step (tracing scalar_ids_probe) scalar_ids_probe None scene =
    (scene, Raise IndexError).
Proof.
  split; [reflexivity|].
  assert (H : pipeline scalar_ids_probe scene (dt scene) = Raise IndexError).
  { unfold pipeline.
    eapply (scalar_ids_a_raises scalar_ids_probe);
      [reflexivity|reflexivity|reflexivity|reflexivity|reflexivity| |];
      reflexivity. }
  split; [exact H|]. reflexivity.
Defined.

(** ** The first calls of the wrappers *)

(** X16. [_physics_step] computes a step and assigns nothing. On an engine
    whose step wrapper has not been called, [step()] has the outcome of
    [_physics_step()] and assigns what it returns; on an engine whose
    wrapper of the n-step function has not been called, so does
    [run_simulation(1)]. *)
Theorem first_call_is_physics_step (J : tracer) (S : xpbd) (e : t) :
  (TinyJit.cnt (jitted_step e) = O ->
   snd (step J S None e) = outcome (_physics_step S e) /\
   forall st, _physics_step S e = Ok st ->
     body_store (fst (step J S None e)) = st) /\
  (TinyJit.cnt (n_step_wrapper e) = O ->
   snd (run_simulation J S 1 e) = outcome (_physics_step S e) /\
   forall st, _physics_step S e = Ok st ->
     body_store (fst (run_simulation J S 1 e)) = st).
Proof.
  split; intros Hc.
  - rewrite step_unfold. cbv zeta. cbn [time_step_of]. rewrite set_dt_same.
    rewrite (call_first _ _ _ _ _ _ Hc).
    change (step_fxn S (inputs_of e) (values_of e)) with (_physics_step S e).
    destruct (_physics_step S e) as [st|ex]; cbn [fst snd].
    + rewrite snd_commit, body_store_commit. split; [reflexivity|].
      intros st' H. now inversion H.
    + split; [reflexivity|discriminate].
  - rewrite run_simulation_unfold. cbv zeta.
    rewrite (call_first _ _ _ _ _ _ Hc).
    assert (Hf : n_step_fxn S (inputs_of e) (values_of e, 1) = _physics_step S e).
    { unfold n_step_fxn, _n_step_simulation, _physics_step, inputs_of, values_of.
      cbn [fst snd in_x in_q in_v in_omega in_inv_mass in_inv_inertia
           in_shape_type in_shape_params in_friction in_gravity val_dt
           val_restitution val_solver_iterations val_contact_compliance].
      change (Z.to_nat 1) with 1%nat. cbn [n_step_loop].
      match goal with |- bind ?r _ = _ => destruct r as [[[[? ?] ?] ?]|?] end;
        reflexivity. }
    rewrite Hf.
    destruct (_physics_step S e) as [st|ex]; cbn [fst snd].
    + rewrite snd_commit, body_store_commit. split; [reflexivity|].
      intros st' H. now inversion H.
    + split; [reflexivity|discriminate].
Qed.

Lemma first_call_is_physics_step_witness :
  TinyJit.cnt (jitted_step scene) = O /\
  snd (step (tracing recording_probe) recording_probe None scene) = Ok tt /\
  snd (run_simulation (tracing recording_probe) recording_probe 1 scene) = Ok tt.
Proof.
  destruct (first_call_is_physics_step (tracing recording_probe)
              recording_probe scene) as [H1 H2].
  split; [reflexivity|]. split.
  - exact (proj1 (H1 eq_refl)).
  - exact (proj1 (H2 eq_refl)).
Defined.

(** ** The claims on the time step and on runs *)

(** C5, as it holds. On a call [step(dt0)] whose wrapper runs the step
    function (its first call, and its second when the run schedules a
    kernel), the pipeline runs once on the Body Store of the engine, and its
    result is assigned to position, orientation, linear velocity and angular
    velocity. The time step of the run is the stored one when no time step
    is passed - the time step of construction only as long as no call has
    replaced it - and the passed one when it differs ([!=]) from the stored
    one, which it then replaces; a passed time step that equals ([==]) the
    stored one leaves the stored one in use, which is the same float unless
    both are zeros. *)
Theorem step_runs_pipeline_once (J : tracer) (S : xpbd)
    (dt0 : option pyfloat) (e : t) :
  let d := time_step_of dt0 e in
  step_runs_function J e d = true ->
  snd (step J S dt0 e) = outcome (pipeline S e d) /\
  dt (fst (step J S dt0 e)) = d /\
  (forall st, pipeline S e d = Ok st -> body_store (fst (step J S dt0 e)) = st) /\
  (dt0 = None -> d = dt e) /\
  (forall d', dt0 = Some d' -> py_ne d' (dt e) = true -> d = d') /\
  (forall d', dt0 = Some d' -> py_ne d' (dt e) = false ->
     d = dt e /\ py_eq d' (dt e) = true /\
     (is_zero_float d' = false -> dt e = d')).
Proof.
  cbv zeta. intros Hrun.
  assert (Hcall :
    TinyJit.call (step_fxn S) (step_records J) (step_replay J) (jitted_step e)
      (inputs_of e) (values_of (set_dt e (time_step_of dt0 e))) =
    match pipeline S e (time_step_of dt0 e) with
    | Ok st =>
        (TinyJit.mk_state (Datatypes.S (TinyJit.cnt (jitted_step e)))
           (match TinyJit.cnt (jitted_step e) with
            | O => TinyJit.captured (jitted_step e)
            | _ => Some (inputs_of e,
                         values_of (set_dt e (time_step_of dt0 e)))
            end), Ok st)
    | Raise ex => (jitted_step e, Raise ex)
    end).
  { unfold step_runs_function in Hrun.
    change (pipeline S e (time_step_of dt0 e))
      with (step_fxn S (inputs_of e) (values_of (set_dt e (time_step_of dt0 e)))).
    destruct (TinyJit.cnt (jitted_step e)) as [|[|k]] eqn:Hc; [| |discriminate].
    - rewrite (call_first _ _ _ _ _ _ Hc).
      now destruct (step_fxn S (inputs_of e) _).
    - rewrite (call_capture _ _ _ _ _ _ Hc), Hrun.
      now destruct (step_fxn S (inputs_of e) _). }
  split; [|split; [|split; [|split; [|split]]]].
  - rewrite step_unfold. cbv zeta. rewrite snd_commit, Hcall.
    now destruct (pipeline S e (time_step_of dt0 e)).
  - rewrite step_unfold. cbv zeta. now rewrite dt_commit.
  - intros st Hst. rewrite step_unfold. cbv zeta.
    rewrite body_store_commit, Hcall, Hst. reflexivity.
  - intros ->. reflexivity.
  - intros d' -> Hne. cbn [time_step_of]. now rewrite Hne.
  - intros d' -> Hne. cbn [time_step_of]. rewrite Hne.
    unfold py_ne in Hne. apply negb_false_iff in Hne.
    split; [reflexivity|]. split; [exact Hne|].
    intros Hz. destruct (py_eq_same d' (dt e) Hne) as [->|[Hd _]]; [reflexivity|].
    rewrite Hd in Hz. discriminate Hz.
Qed.

Lemma step_runs_pipeline_once_witness :
  step_runs_function (tracing recording_probe) scene
    (time_step_of (Some dt_0004) scene) = true /\
  dt (fst (step (tracing recording_probe) recording_probe (Some dt_0004) scene))
    = dt_0004 /\
  body_store
    (fst (step (tracing recording_probe) recording_probe (Some dt_0004) scene))
    = (x scene, q scene, dt_tensor dt_0004, count_up (omega scene)).
Proof.
  destruct (step_runs_pipeline_once (tracing recording_probe) recording_probe
              (Some dt_0004) scene eq_refl) as (_ & Hd & Hstore & _).
  split; [reflexivity|]. split; [exact Hd|].
  apply Hstore. reflexivity.
Defined.

(** C5, as stated, fails: the engine of the scene is constructed with the
    default time step 0.016; after a call [step(0.004)], a call [step()]
    runs the pipeline with 0.004 and not with the time step of
    construction. *)
Lemma step_without_dt_not_construction_dt :
  scene_engine = Ok scene /\
  dt scene = default_dt /\
  let e1 := fst (step (tracing recording_probe) recording_probe (Some dt_0004)
                   scene) in
  let e2 := fst (step (tracing recording_probe) recording_probe None e1) in
  pipeline recording_probe e1 dt_0004 = Ok (body_store e2) /\
  pipeline recording_probe e1 default_dt <> Ok (body_store e2).
Proof.
  split; [reflexivity|]. split; [reflexivity|].
  cbv zeta. split; [reflexivity|].
  intros H. vm_compute in H. discriminate H.
Qed.

Section Replays.
Context (J : tracer) (S : xpbd).

(** What a call of [step] on a wrapper that replays gives depends on the
    tensors of the engine and on the wrapper alone. *)
Lemma replayed_step (dt1 dt2 : option pyfloat) (e1 e2 : t) :
  (2 <= TinyJit.cnt (jitted_step e1))%nat ->
  inputs_of e1 = inputs_of e2 ->
  jitted_step e1 = jitted_step e2 ->
  snd (step J S dt1 e1) = snd (step J S dt2 e2) /\
  inputs_of (fst (step J S dt1 e1)) = inputs_of (fst (step J S dt2 e2)) /\
  jitted_step (fst (step J S dt1 e1)) = jitted_step (fst (step J S dt2 e2)).
Proof.
  intros Hc Hi Hj. rewrite !step_unfold. cbv zeta.
  rewrite <- Hi, <- Hj.
  rewrite (call_replay (step_fxn S) (step_records J) (step_replay J)
             (jitted_step e1) (inputs_of e1)
             (values_of (set_dt e2 (time_step_of dt2 e2)))
             (values_of (set_dt e1 (time_step_of dt1 e1))) Hc).
  destruct (TinyJit.call (step_fxn S) (step_records J) (step_replay J)
              (jitted_step e1) (inputs_of e1)
              (values_of (set_dt e1 (time_step_of dt1 e1))))
    as [j' [[[[x1 q1] v1] o1]|ex]]; cbn [fst snd commit].
  - destruct e1, e2. cbn in *. inversion Hi; subst. repeat split.
  - destruct e1, e2. cbn in *. inversion Hi; subst. repeat split.
Qed.

Lemma replayed_step_cnt (dt0 : option pyfloat) (e : t) :
  (2 <= TinyJit.cnt (jitted_step e))%nat ->
  (2 <= TinyJit.cnt (jitted_step (fst (step J S dt0 e))))%nat.
Proof.
  intros Hc. rewrite step_unfold. cbv zeta.
  unfold TinyJit.call.
  destruct (TinyJit.cnt (jitted_step e)) as [|[|k]] eqn:E; [lia|lia|].
  destruct (TinyJit.captured (jitted_step e)) as [[i0 p0]|]; cbn [fst snd commit].
  - destruct (step_replay J i0 p0 (inputs_of e)) as [[[[x1 q1] v1] o1]|ex];
      cbn; rewrite ?E; lia.
  - cbn. rewrite E. lia.
Qed.

(** C9, on the code. A call [step(d)] with [d != self.dt] stores [d]. Once
    the step wrapper replays, the stored time step is not what a step runs
    with: two calls [step(d1)] and [step(d2)] store their time steps and
    assign the same position, orientation and velocities, and so does a
    call [step()] after each of them. *)
Theorem replayed_step_ignores_dt (d1 d2 : pyfloat) (e : t) :
  (2 <= TinyJit.cnt (jitted_step e))%nat ->
  py_ne d1 (dt e) = true -> py_ne d2 (dt e) = true ->
  let e1 := fst (step J S (Some d1) e) in
  let e2 := fst (step J S (Some d2) e) in
  dt e1 = d1 /\ dt e2 = d2 /\
  snd (step J S (Some d1) e) = snd (step J S (Some d2) e) /\
  body_store e1 = body_store e2 /\
  snd (step J S None e1) = snd (step J S None e2) /\
  body_store (fst (step J S None e1)) = body_store (fst (step J S None e2)).
Proof.
  intros Hc H1 H2. cbv zeta.
  destruct (replayed_step (Some d1) (Some d2) e e Hc eq_refl eq_refl)
    as (Hs & Hi & Hj).
  pose proof (replayed_step_cnt (Some d1) e Hc) as Hc1.
  destruct (replayed_step None None _ _ Hc1 Hi Hj) as (Hs' & Hi' & _).
  assert (Hstore : forall a b : t, inputs_of a = inputs_of b ->
                                   body_store a = body_store b).
  { intros a b H. destruct a, b. cbn in *. now inversion H. }
  repeat split.
  - rewrite step_unfold. cbv zeta. rewrite dt_commit. cbn [time_step_of dt set_dt
      set_jitted_step]. now rewrite H1.
  - rewrite step_unfold. cbv zeta. rewrite dt_commit. cbn [time_step_of dt set_dt
      set_jitted_step]. now rewrite H2.
  - exact Hs.
  - now apply Hstore.
  - exact Hs'.
  - now apply Hstore.
Qed.

(** C3, on the code. Once the wrapper of the n-step function replays, the
    number of steps passed to [run_simulation] is not read: every number
    gives the same engine and the same outcome. *)
Theorem run_simulation_ignores_num_steps (n1 n2 : Z) (e : t)
    (j : TinyJit.state n_step_values) :
  jitted_n_step e = Some j ->
  (2 <= TinyJit.cnt j)%nat ->
  run_simulation J S n1 e = run_simulation J S n2 e.
Proof.
  intros Hj Hc. rewrite !run_simulation_unfold. cbv zeta.
  unfold n_step_wrapper. rewrite Hj.
  change (default TinyJit.fresh (Some j)) with j.
  now rewrite (call_replay (n_step_fxn S) (n_step_schedules J) (n_step_replay J)
                 j (inputs_of e) (values_of e, n1) (values_of e, n2) Hc).
Qed.
End Replays.

(** On the engine whose step wrapper captured a step with time step 0.5,
    [step(0.25)] stores 0.25, and it and a later [step()] run with 0.5. *)
Lemma replayed_step_ignores_dt_witness :
  (2 <= TinyJit.cnt (jitted_step captured_engine))%nat /\
  let e1 := fst (step (tracing recording_probe) recording_probe (Some dt_025)
                   captured_engine) in
  dt e1 = dt_025 /\
  v e1 = dt_tensor dt_05 /\
  v (fst (step (tracing recording_probe) recording_probe None e1))
    = dt_tensor dt_05 /\
  dt_tensor dt_05 <> dt_tensor dt_025.
Proof.
  assert (Hc : (2 <= TinyJit.cnt (jitted_step captured_engine))%nat)
    by (vm_compute; lia).
  split; [exact Hc|]. cbv zeta.
  destruct (replayed_step_ignores_dt (tracing recording_probe) recording_probe
              dt_025 dt_0004 captured_engine Hc eq_refl eq_refl)
    as (Hd & _).
  split; [exact Hd|]. split; [reflexivity|]. split; [reflexivity|].
  discriminate.
Defined.

(** On the engine whose wrapper captured a run of one step,
    [run_simulation(3)] is [run_simulation(1)] and runs one step, where three
    calls [step()] run three. *)
Lemma run_simulation_ignores_num_steps_witness :
  run_simulation (tracing recording_probe) recording_probe 3 (captured_run 1) =
  run_simulation (tracing recording_probe) recording_probe 1 (captured_run 1) /\
  dimensions (fst (run_simulation (tracing recording_probe) recording_probe 3
                     (captured_run 1))) = (dimensions (captured_run 1) + 1)%nat /\
  dimensions (fst (step_n (tracing recording_probe) recording_probe 3
                     (captured_run 1))) = (dimensions (captured_run 1) + 3)%nat.
Proof.
  split; [|split; reflexivity].
  eapply (run_simulation_ignores_num_steps (tracing recording_probe)
            recording_probe 3 1 (captured_run 1)).
  - reflexivity.
  - vm_compute. lia.
Defined.


